(** * INF80057 prototype assistant backend: answer resolution and schedule lookup

    A shallow embedding of [backend/main.py]: the three request handlers
    [health], [answer] and [nxt], the module-level globals they read
    ([KILLED], [MOCK], [DOCS]) and the string operations of Python's [str]
    they rely on. *)

From Stdlib Require Import List NArith ZArith Bool Lia String Ascii.
From Stdlib Require Import DecimalString DecimalPos DecimalZ.
Import ListNotations.

Set Implicit Arguments.

(** ** Python strings

    A Python [str] is a sequence of Unicode code points. *)

Definition char := N.
Definition pystr := list char.

(** ASCII literals, one code point per character. *)
Definition py (s : string) : pystr := map N_of_ascii (list_ascii_of_string s).

Fixpoint str_eqb (a b : pystr) : bool :=
  match a, b with
  | [], [] => true
  | x :: a', y :: b' => N.eqb x y && str_eqb a' b'
  | _, _ => false
  end.

(** [s.startswith(p)] *)
Fixpoint starts_with (p s : pystr) : bool :=
  match p, s with
  | [], _ => true
  | _ :: _, [] => false
  | a :: p', b :: s' => N.eqb a b && starts_with p' s'
  end.

(** [sub in s]: the substring test. *)
Fixpoint contains (sub s : pystr) : bool :=
  starts_with sub s ||
  match s with
  | [] => false
  | _ :: s' => contains sub s'
  end.

(** [s.replace(a, b)] for one-character [a] and [b]. *)
Definition replace_char (a b : char) (s : pystr) : pystr :=
  map (fun c => if N.eqb c a then b else c) s.

Fixpoint drop_while (p : char -> bool) (s : pystr) : pystr :=
  match s with
  | [] => []
  | c :: s' => if p c then drop_while p s' else s
  end.

(** The part of the Unicode character database that [str.lower],
    [str.strip] and [str.split] consult.  It belongs to the interpreter,
    not to the program, so the handlers are stated over any such database.
    [lower] acts on whole strings: Python's lower-casing can change the
    length of a string and depends on context. *)
Class UnicodeDB := {
  lower : pystr -> pystr;
  isspace : char -> bool;
  lower_empty : lower [] = []
}.

Section Str.
Context {U : UnicodeDB}.

(** [s.strip()] *)
Definition strip (s : pystr) : pystr :=
  rev (drop_while isspace (rev (drop_while isspace s))).

(** [s.split()]: maximal runs of non-whitespace characters.  [cur] is the
    run being read, most recent character first. *)
Fixpoint split_from (cur : pystr) (s : pystr) : list pystr :=
  match s with
  | [] => match cur with [] => [] | _ => [rev cur] end
  | c :: s' =>
      if isspace c
      then match cur with
           | [] => split_from [] s'
           | _ => rev cur :: split_from [] s'
           end
      else split_from (c :: cur) s'
  end.

Definition split (s : pystr) : list pystr := split_from [] s.
End Str.

(** The database restricted to ASCII letters: [A]-[Z] are lower-cased and
    every other code point is left alone; whitespace is the set CPython's
    [str.isspace] accepts.  It agrees with Python on every string whose
    cased characters are all ASCII, and serves for the concrete runs. *)
Definition ascii_lower_char (c : char) : char :=
  if (65 <=? c)%N && (c <=? 90)%N then (c + 32)%N else c.

Definition py_isspace (c : char) : bool :=
  ((9 <=? c)%N && (c <=? 13)%N) || ((28 <=? c)%N && (c <=? 32)%N)
  || N.eqb c 133 || N.eqb c 160 || N.eqb c 5760
  || ((8192 <=? c)%N && (c <=? 8202)%N)
  || N.eqb c 8232 || N.eqb c 8233 || N.eqb c 8239 || N.eqb c 8287
  || N.eqb c 12288.

#[export] Instance ascii_db : UnicodeDB := {|
  lower := map ascii_lower_char;
  isspace := py_isspace;
  lower_empty := eq_refl
|}.

(** ** Exceptions

    The three ways a handler can leave without a response body:
    the [HTTPException] it raises itself, and the [KeyError] and
    [IndexError] of a failed subscript. *)

Inductive exn :=
| HTTPException (status_code : Z) (detail : pystr)
| KeyError (key : pystr)
| IndexError.

Inductive result (A : Type) :=
| Ok (a : A)
| Raise (e : exn).
Arguments Ok {A} a.
Arguments Raise {A} e.

Definition bind {A B} (m : result A) (k : A -> result B) : result B :=
  match m with
  | Ok a => k a
  | Raise e => Raise e
  end.

Notation "x <- m ;; k" := (bind m (fun x => k))
  (at level 61, m at next level, right associativity).

(** A key of a JSON object is [Some v] when present and [None] when absent.
    [d[key]] *)
Definition getitem {A} (field : option A) (key : string) : result A :=
  match field with
  | Some v => Ok v
  | None => Raise (KeyError (py key))
  end.

(** [d.get(key, default)] *)
Definition get {A} (field : option A) (default : A) : A :=
  match field with
  | Some v => v
  | None => default
  end.

(** [l[0]] *)
Definition first {A} (l : list A) : result A :=
  match l with
  | x :: _ => Ok x
  | [] => Raise IndexError
  end.

(** Truth value of a list: [bool(l)]. *)
Definition truthy {A} (l : list A) : bool :=
  match l with
  | [] => false
  | _ :: _ => true
  end.

(** ** Data loaded at start-up *)

(** An entry of a document's ["sections"]. *)
Record DocSection := {
  sec_loc : option pystr;
  sec_text : option pystr
}.

(** An entry of [seed_docs.json]. *)
Record Document := {
  doc_title : option pystr;
  doc_href : option pystr;
  doc_sections : option (list DocSection)
}.

(** A week identifier: a JSON integer or a JSON string. *)
Inductive ident :=
| IInt (n : Z)
| IStr (s : pystr).

(** An entry of ["weeks"] in [mock_dates.json]. *)
Record WeekRecord := {
  wk_week : option ident;
  wk_milestones : option (list pystr)
}.

Record Mock := {
  weeks : option (list WeekRecord)
}.

(** The module-level globals the handlers read. *)
Record Globals := {
  KILLED : bool;
  MOCK : Mock;
  DOCS : list Document
}.

(** ** Request and response models *)

Record AnswerRequest := {
  role : pystr;
  question : pystr;
  context_policy : option pystr;
  mode : option pystr
}.

Record Citation := {
  title : pystr;
  href : pystr;
  loc : pystr
}.

Record AnswerResponse := {
  resp_answer : pystr;
  resp_citations : list Citation;
  resp_socratic_prompts : list pystr;
  resp_refusal : bool
}.

(** [state] is an open dictionary; it is kept as the list of its items. *)
Record NextRequest := {
  next_role : pystr;
  state : list (pystr * ident)
}.

Record Ref := {
  ref_title : pystr;
  ref_loc : pystr
}.

Record ChecklistResult := {
  checklist : list pystr;
  refs : list Ref
}.


(** [state.get(key)]: [None] when the key is absent. *)
Fixpoint dict_get (key : pystr) (d : list (pystr * ident)) : option ident :=
  match d with
  | [] => None
  | (k, v) :: d' => if str_eqb k key then Some v else dict_get key d'
  end.

(** [a == b] on week identifiers, [None] included. *)
Definition ident_eqb (a b : option ident) : bool :=
  match a, b with
  | None, None => true
  | Some (IInt x), Some (IInt y) => Z.eqb x y
  | Some (IStr x), Some (IStr y) => str_eqb x y
  | _, _ => false
  end.

(** [str(n)] for an integer: decimal digits, with a leading minus sign. *)
Definition str_of_int (n : Z) : pystr :=
  py (NilZero.string_of_int (Z.to_int n)).

(** The rendering of [week] inside the f-string. *)
Definition format_ident (w : option ident) : pystr :=
  match w with
  | None => py "None"
  | Some (IInt n) => str_of_int n
  | Some (IStr s) => s
  end.

(** ** Fixed strings of the handlers *)

Definition keywords : list pystr :=
  [py "task 1"; py "week 4"; py "proposal"; py "planning document"; py "due"].

Definition paused_detail : pystr := py "Assistant paused by staff".

Definition task1_answer : pystr :=
  py "Task 1 Part 1 is due in Week 4. It includes the Project Proposal and Planning Document.".

Definition task1_prompt : pystr :=
  py "Which client constraints affect your scope before Week 4?".

Definition overlap_prompt : pystr :=
  py "What evidence from the assessment guide supports your plan?".

Definition authorised_only : pystr :=
  py "I can only answer from authorised files.".

(** The apostrophes of the refusal are U+2019. *)
Definition refusal_answer : pystr :=
  py "I can" ++ [8217%N] ++ py "t answer that from the unit" ++ [8217%N]
  ++ py "s authorised files. Try the Assessment Guide v1.0, Section 1.".

Definition no_milestones : pystr := py "No milestones found for this week.".

Definition refusal_response : AnswerResponse := {|
  resp_answer := refusal_answer;
  resp_citations := [];
  resp_socratic_prompts := [];
  resp_refusal := true
|}.

(** [any(w in text for w in ws)] *)
Definition any_in (ws : list pystr) (text : pystr) : bool :=
  existsb (fun w => contains w text) ws.

(** ** The handlers *)

Section Handlers.
Context {U : UnicodeDB}.

(** [os.getenv("ASSISTANT_KILLED", "false").lower() == "true"] *)
Definition killed_of_env (var : option pystr) : bool :=
  str_eqb (lower (get var (py "false"))) (py "true").

(** Start-up: a file that cannot be loaded is replaced by an empty
    collection. *)
Definition startup (var : option pystr) (mock_file : option Mock)
    (docs_file : option (list Document)) : Globals := {|
  KILLED := killed_of_env var;
  MOCK := get mock_file {| weeks := Some [] |};
  DOCS := get docs_file []
|}.


(** [q.replace("?", " ").split()] filtered by [len(w) >= 4]. *)
Definition q_words_of (q : pystr) : list pystr :=
  filter (fun w => 4 <=? List.length w) (split (replace_char 63%N 32%N q)).

(** The test of the inner loop of the overlap fallback. *)
Definition sec_hit (q_words : list pystr) (sec : DocSection) : bool :=
  any_in q_words (lower (get (sec_text sec) [])).

(** A section, a document, the fallback passes over without a hit. *)
Definition quiet_section (q_words : list pystr) (sec : DocSection) : Prop :=
  sec_hit q_words sec = false.

Definition quiet_document (q_words : list pystr) (doc : Document) : Prop :=
  forall sec, In sec (get (doc_sections doc) []) -> quiet_section q_words sec.

(** The response built when [sec] of [doc] is hit. *)
Definition overlap_response (doc : Document) (sec : DocSection)
  : result AnswerResponse :=
  t <- getitem (doc_title doc) "title" ;;
  h <- getitem (doc_href doc) "href" ;;
  Ok {| resp_answer := get (sec_text sec) authorised_only;
        resp_citations :=
          [{| title := t; href := h; loc := get (sec_loc sec) [] |}];
        resp_socratic_prompts := [overlap_prompt];
        resp_refusal := false |}.

(** The inner loop: [None] when it runs to its end. *)
Fixpoint scan_sections (q_words : list pystr) (doc : Document)
    (secs : list DocSection) : option (result AnswerResponse) :=
  match secs with
  | [] => None
  | sec :: secs' =>
      if sec_hit q_words sec
      then Some (overlap_response doc sec)
      else scan_sections q_words doc secs'
  end.

(** The outer loop. *)
Fixpoint scan_docs (q_words : list pystr) (docs : list Document)
  : option (result AnswerResponse) :=
  match docs with
  | [] => None
  | doc :: docs' =>
      match scan_sections q_words doc (get (doc_sections doc) []) with
      | Some r => Some r
      | None => scan_docs q_words docs'
      end
  end.

(** The deterministic keyword path. *)
Definition keyword_response (docs : list Document) : result AnswerResponse :=
  doc <- first docs ;;
  secs <- getitem (doc_sections doc) "sections" ;;
  sec <- first secs ;;
  t <- getitem (doc_title doc) "title" ;;
  h <- getitem (doc_href doc) "href" ;;
  l <- getitem (sec_loc sec) "loc" ;;
  Ok {| resp_answer := task1_answer;
        resp_citations := [{| title := t; href := h; loc := l |}];
        resp_socratic_prompts := [task1_prompt];
        resp_refusal := false |}.

(** [q = req.question.lower().strip()] *)
Definition normalized (req : AnswerRequest) : pystr :=
  strip (lower (question req)).

(** [POST /answer] *)
Definition answer (g : Globals) (req : AnswerRequest) : result AnswerResponse :=
  if KILLED g then Raise (HTTPException 503 paused_detail)
  else
    let q := normalized req in
    if any_in keywords q && truthy (DOCS g)
    then keyword_response (DOCS g)
    else
      let q_words := q_words_of q in
      match scan_docs q_words (DOCS g) with
      | Some r => r
      | None => Ok refusal_response
      end.

(** The loop of [nxt]: [items] stays [[]] unless a record is found, and the
    loop stops at the first one. *)
Fixpoint find_items (week : option ident) (ws : list WeekRecord) : list pystr :=
  match ws with
  | [] => []
  | w :: ws' =>
      if ident_eqb (wk_week w) week
      then get (wk_milestones w) []
      else find_items week ws'
  end.

(** [POST /next] *)
Definition nxt (g : Globals) (req : NextRequest) : result ChecklistResult :=
  if KILLED g then Raise (HTTPException 503 paused_detail)
  else
    let week := dict_get (py "week") (state req) in
    let items := find_items week (get (weeks (MOCK g)) []) in
    let items := if truthy items then items else [no_milestones] in
    Ok {| checklist := items;
          refs := [{| ref_title := py "mock_dates.json";
                      ref_loc := py "week:" ++ format_ident week |}] |}.

End Handlers.

(** ** Well-formed corpora

    A document with a title, an href and a list of sections, possibly
    empty, each with a loc and a text. *)

Definition present {A} (field : option A) : bool :=
  match field with
  | Some _ => true
  | None => false
  end.

Definition well_formed_section (sec : DocSection) : bool :=
  present (sec_loc sec) && present (sec_text sec).

Definition well_formed_document (doc : Document) : bool :=
  present (doc_title doc) && present (doc_href doc) &&
  match doc_sections doc with
  | Some secs => forallb well_formed_section secs
  | None => false
  end.

(** ** Sample data for the concrete runs *)

Definition mk_section (l t : string) : DocSection :=
  {| sec_loc := Some (py l); sec_text := Some (py t) |}.

Definition mk_document (t h : string) (secs : list DocSection) : Document :=
  {| doc_title := Some (py t); doc_href := Some (py h);
     doc_sections := Some secs |}.

Definition ask (q : pystr) : AnswerRequest :=
  {| role := py "student"; question := q;
     context_policy := Some (py "authoritative_only");
     mode := Some (py "tutor") |}.

(** The same question from another role, with other options. *)
Definition ask_as_staff (q : pystr) : AnswerRequest :=
  {| role := py "staff"; question := q;
     context_policy := None;
     mode := Some (py "quiz") |}.

Definition ask_week (w : ident) : NextRequest :=
  {| next_role := py "student"; state := [(py "week", w)] |}.

Definition open_with (docs : list Document) : Globals :=
  {| KILLED := false; MOCK := {| weeks := Some [] |}; DOCS := docs |}.

Definition guide : Document :=
  mk_document "Guide" "/g"
    [mk_section "p.1" "Assessment overview and marking criteria"].

Definition handbook : Document :=
  mk_document "Handbook" "/h"
    [mk_section "s.1" "Welcome to the unit";
     mk_section "s.2" "Marking criteria are published in the guide";
     mk_section "s.3" "Late penalties and marking criteria"].

(** A document whose ["sections"] is the empty list. *)
Definition bare : Document := mk_document "Guide" "/g" [].

(** A document one of whose sections carries the refusal text. *)
Definition echo : Document :=
  {| doc_title := Some (py "Notes"); doc_href := Some (py "/n");
     doc_sections :=
       Some [{| sec_loc := Some (py "p.9"); sec_text := Some refusal_answer |}] |}.

Definition schedule4 : Globals :=
  {| KILLED := false;
     MOCK := {| weeks :=
       Some [{| wk_week := Some (IInt 4);
                wk_milestones := Some [py "Submit proposal"] |};
             {| wk_week := Some (IInt 5); wk_milestones := Some [] |};
             {| wk_week := Some (IInt 4);
                wk_milestones := Some [py "Second entry"] |}] |};
     DOCS := [] |}.


(** ** Variations of the globals and further sample data *)

(** The globals with another corpus, another schedule. *)
Definition with_docs (g : Globals) (docs : list Document) : Globals :=
  {| KILLED := KILLED g; MOCK := MOCK g; DOCS := docs |}.

Definition with_weeks (g : Globals) (ws : option (list WeekRecord)) : Globals :=
  {| KILLED := KILLED g; MOCK := {| weeks := ws |}; DOCS := DOCS g |}.

(** A document that can be cited: it has a title and an href. *)
Definition citable (doc : Document) : bool :=
  present (doc_title doc) && present (doc_href doc).

(** A document without a ["sections"] key, and one whose only section has
    neither loc nor text. *)
Definition sparse : Document :=
  {| doc_title := Some (py "Sparse"); doc_href := Some (py "/s");
     doc_sections := None |}.

Definition hollow : Document :=
  {| doc_title := Some (py "Hollow"); doc_href := Some (py "/o");
     doc_sections := Some [{| sec_loc := None; sec_text := None |}] |}.

(** A document whose section has a text and no loc. *)
Definition unplaced : Document :=
  {| doc_title := Some (py "Unplaced"); doc_href := Some (py "/u");
     doc_sections :=
       Some [{| sec_loc := None;
                sec_text := Some (py "Marking rubric for the report") |}] |}.

(** A schedule with a record that has no ["week"] key. *)
Definition undated : Globals :=
  {| KILLED := false;
     MOCK := {| weeks :=
       Some [{| wk_week := Some (IInt 1); wk_milestones := Some [py "Kick-off"] |};
             {| wk_week := None; wk_milestones := Some [py "Unscheduled work"] |}] |};
     DOCS := [] |}.

(** ** Concrete runs of the string operations *)

Example split_demo :
  split (py "  when is   it due ") = [py "when"; py "is"; py "it"; py "due"].
Proof. reflexivity. Qed.

Example strip_demo : strip (lower (py "  Task 1? ")) = py "task 1?".
Proof. reflexivity. Qed.

Example contains_demo :
  contains (py "due") (py "when is it due") = true /\
  contains (py "due") (py "du e") = false /\
  contains [] [] = true.
Proof. repeat split. Qed.

Example str_of_int_demo :
  str_of_int 4 = py "4" /\ str_of_int 0 = py "0" /\
  str_of_int (-12) = py "-12" /\ str_of_int 1005 = py "1005".
Proof. repeat split. Qed.

(** ** Facts about the string operations *)

Lemma str_eqb_eq (a b : pystr) : str_eqb a b = true <-> a = b.
Proof.
  revert b; induction a as [|x a IH]; intros [|y b]; simpl;
    try (split; [discriminate | discriminate]); try tauto.
  rewrite andb_true_iff, N.eqb_eq, IH.
  split; [intros [-> ->]; reflexivity | intros E; inversion E; auto].
Qed.

Lemma str_eqb_refl (a : pystr) : str_eqb a a = true.
Proof. apply str_eqb_eq; reflexivity. Qed.

Lemma starts_with_spec (p s : pystr) :
  starts_with p s = true <-> exists rest, s = p ++ rest.
Proof.
  revert s; induction p as [|a p IH]; intros s; simpl.
  - split; [intros _; exists s; reflexivity | reflexivity].
  - destruct s as [|b s].
    + split; [discriminate | intros [rest E]; discriminate].
    + rewrite andb_true_iff, N.eqb_eq, IH. split.
      * intros [-> [rest ->]]. exists rest. reflexivity.
      * intros [rest E]. inversion E; subst. split; [reflexivity | eauto].
Qed.

(** [contains] is the substring relation. *)
Lemma contains_spec (sub s : pystr) :
  contains sub s = true <-> exists before after, s = before ++ sub ++ after.
Proof.
  induction s as [|c s IH].
  - simpl. rewrite orb_false_r, starts_with_spec. split.
    + intros [rest E]. exists [], rest. exact E.
    + intros [before [after E]]. destruct before; [eauto | discriminate].
  - simpl. rewrite orb_true_iff, IH, starts_with_spec. split.
    + intros [[rest E] | [before [after E]]].
      * exists [], rest. exact E.
      * exists (c :: before), after. simpl. rewrite E. reflexivity.
    + intros [[|b before] [after E]].
      * left. exists after. exact E.
      * right. inversion E; subst. eauto.
Qed.

(** Only the empty string occurs in the empty string. *)
Lemma contains_in_empty (sub : pystr) : contains sub [] = true -> sub = [].
Proof. destruct sub; [reflexivity | discriminate]. Qed.

Lemma any_in_spec (ws : list pystr) (text : pystr) :
  any_in ws text = true <-> exists w, In w ws /\ contains w text = true.
Proof. apply existsb_exists. Qed.

Lemma any_in_nil (text : pystr) : any_in [] text = false.
Proof. reflexivity. Qed.

(** No word of four characters or more occurs in the empty string. *)
Lemma any_in_empty_text (ws : list pystr) :
  (forall w, In w ws -> 4 <= List.length w) -> any_in ws [] = false.
Proof.
  intros Hlen. destruct (any_in ws []) eqn:E; [|reflexivity].
  apply any_in_spec in E. destruct E as [w [Hin Hc]].
  apply contains_in_empty in Hc. subst w.
  specialize (Hlen _ Hin). simpl in Hlen. lia.
Qed.

Lemma ident_eqb_eq (a b : option ident) : ident_eqb a b = true <-> a = b.
Proof.
  destruct a as [[x|x]|], b as [[y|y]|]; simpl;
    try (split; [discriminate | discriminate]); try tauto.
  - rewrite Z.eqb_eq. split; [intros ->; reflexivity | intros E; inversion E; auto].
  - rewrite str_eqb_eq. split; [intros ->; reflexivity | intros E; inversion E; auto].
Qed.

Section HandlerFacts.
Context {U : UnicodeDB}.

Lemma strip_empty : strip [] = [].
Proof. reflexivity. Qed.

(** Every word kept for the fallback has four characters or more. *)
Lemma q_words_of_long (q w : pystr) :
  In w (q_words_of q) -> 4 <= List.length w.
Proof.
  unfold q_words_of. rewrite filter_In. intros [_ H].
  apply Nat.leb_le in H. exact H.
Qed.

Lemma q_words_of_empty : q_words_of [] = [].
Proof. reflexivity. Qed.

(** What a hit means: some kept word is a substring of the lower-cased
    text of the section. *)
Lemma sec_hit_spec (ws : list pystr) (sec : DocSection) :
  sec_hit ws sec = true <->
  exists w before after,
    In w ws /\ lower (get (sec_text sec) []) = before ++ w ++ after.
Proof.
  unfold sec_hit. rewrite any_in_spec. split.
  - intros [w [Hin Hc]]. apply contains_spec in Hc.
    destruct Hc as [b [a E]]. exists w, b, a. auto.
  - intros [w [b [a [Hin E]]]]. exists w. split; [exact Hin|].
    apply contains_spec. eauto.
Qed.

(** A section without a ["text"] key is never hit. *)
Lemma sec_hit_no_text (q : pystr) (sec : DocSection) :
  sec_text sec = None -> sec_hit (q_words_of q) sec = false.
Proof.
  intros E. unfold sec_hit. rewrite E. simpl. rewrite lower_empty.
  apply any_in_empty_text. intros w. apply q_words_of_long.
Qed.

Lemma sec_hit_has_text (q : pystr) (sec : DocSection) :
  sec_hit (q_words_of q) sec = true -> exists tx, sec_text sec = Some tx.
Proof.
  intros H. destruct (sec_text sec) as [tx|] eqn:E; [eauto|].
  rewrite (sec_hit_no_text q sec E) in H. discriminate.
Qed.

End HandlerFacts.

(** ** The two loops of the overlap fallback *)

Section Scan.
Context {U : UnicodeDB}.
Variable q_words : list pystr.

Lemma scan_sections_skip (doc : Document) (pre rest : list DocSection) :
  (forall sec, In sec pre -> quiet_section q_words sec) ->
  scan_sections q_words doc (pre ++ rest) = scan_sections q_words doc rest.
Proof.
  induction pre as [|s pre IH]; intros Hq; simpl; [reflexivity|].
  rewrite (Hq s (or_introl eq_refl)). apply IH.
  intros sec Hin. apply Hq. right. exact Hin.
Qed.

Lemma scan_sections_none (doc : Document) (secs : list DocSection) :
  scan_sections q_words doc secs = None <->
  forall sec, In sec secs -> quiet_section q_words sec.
Proof.
  unfold quiet_section. induction secs as [|s secs IH]; simpl.
  - split; [intros _ sec [] | reflexivity].
  - destruct (sec_hit q_words s) eqn:E.
    + split; [discriminate|]. intros H.
      specialize (H s (or_introl eq_refl)). congruence.
    + rewrite IH. split.
      * intros H sec [<-|Hin]; auto.
      * intros H sec Hin. apply H. right. exact Hin.
Qed.

Lemma scan_sections_some (doc : Document) (secs : list DocSection)
    (r : result AnswerResponse) :
  scan_sections q_words doc secs = Some r ->
  exists pre sec post,
    secs = pre ++ sec :: post /\
    (forall s, In s pre -> quiet_section q_words s) /\
    sec_hit q_words sec = true /\
    r = overlap_response doc sec.
Proof.
  induction secs as [|s secs IH]; simpl; [discriminate|].
  destruct (sec_hit q_words s) eqn:E.
  - intros [= <-]. exists [], s, secs. repeat split; auto. intros ? [].
  - intros H. destruct (IH H) as [pre [sec [post [-> [Hq [Hh ->]]]]]].
    exists (s :: pre), sec, post. repeat split; auto.
    intros s0 [<-|Hin]; [exact E | auto].
Qed.

Lemma scan_docs_skip (pre rest : list Document) :
  (forall doc, In doc pre -> quiet_document q_words doc) ->
  scan_docs q_words (pre ++ rest) = scan_docs q_words rest.
Proof.
  induction pre as [|d pre IH]; intros Hq; simpl; [reflexivity|].
  assert (Hd : scan_sections q_words d (get (doc_sections d) []) = None).
  { apply scan_sections_none. apply Hq. left. reflexivity. }
  rewrite Hd. apply IH. intros doc Hin. apply Hq. right. exact Hin.
Qed.

Lemma scan_docs_none (docs : list Document) :
  scan_docs q_words docs = None <->
  forall doc, In doc docs -> quiet_document q_words doc.
Proof.
  induction docs as [|d docs IH]; simpl.
  - split; [intros _ doc [] | reflexivity].
  - destruct (scan_sections q_words d (get (doc_sections d) [])) eqn:E.
    + split; [discriminate|]. intros H.
      assert (Hd : quiet_document q_words d) by (apply H; left; reflexivity).
      pose proof (proj2 (scan_sections_none d _) Hd). congruence.
    + rewrite IH. pose proof (proj1 (scan_sections_none d _) E) as Hd. split.
      * intros H doc [<-|Hin]; auto.
      * intros H doc Hin. apply H. right. exact Hin.
Qed.

Lemma scan_docs_some (docs : list Document) (r : result AnswerResponse) :
  scan_docs q_words docs = Some r ->
  exists dpre doc dpost spre sec spost,
    docs = dpre ++ doc :: dpost /\
    (forall d, In d dpre -> quiet_document q_words d) /\
    get (doc_sections doc) [] = spre ++ sec :: spost /\
    (forall s, In s spre -> quiet_section q_words s) /\
    sec_hit q_words sec = true /\
    r = overlap_response doc sec.
Proof.
  induction docs as [|d docs IH]; simpl; [discriminate|].
  destruct (scan_sections q_words d (get (doc_sections d) [])) eqn:E.
  - intros [= <-]. apply scan_sections_some in E.
    destruct E as [spre [sec [spost [Es [Hq [Hh ->]]]]]].
    exists [], d, docs, spre, sec, spost. repeat split; auto. intros ? [].
  - intros H. destruct (IH H) as
      [dpre [doc [dpost [spre [sec [spost [-> [Hd [Es [Hq [Hh ->]]]]]]]]]]].
    exists (d :: dpre), doc, dpost, spre, sec, spost. repeat split; auto.
    intros d0 [<-|Hin]; [|auto]. exact (proj1 (scan_sections_none d _) E).
Qed.

(** The first hit, document by document and section by section, decides. *)
Lemma scan_docs_first (dpre dpost : list Document) (doc : Document)
    (spre spost : list DocSection) (sec : DocSection) :
  (forall d, In d dpre -> quiet_document q_words d) ->
  get (doc_sections doc) [] = spre ++ sec :: spost ->
  (forall s, In s spre -> quiet_section q_words s) ->
  sec_hit q_words sec = true ->
  scan_docs q_words (dpre ++ doc :: dpost) = Some (overlap_response doc sec).
Proof.
  intros Hd Es Hs Hh. rewrite (scan_docs_skip _ _ Hd). simpl.
  rewrite Es, (scan_sections_skip doc _ _ Hs). simpl. rewrite Hh. reflexivity.
Qed.

End Scan.

(** ** The keyword path and the overlap fallback *)

Section AnswerFacts.
Context {U : UnicodeDB}.

Lemma keyword_response_ok (docs : list Document) (r : AnswerResponse) :
  keyword_response docs = Ok r ->
  exists t h l,
    r = {| resp_answer := task1_answer;
           resp_citations := [{| title := t; href := h; loc := l |}];
           resp_socratic_prompts := [task1_prompt];
           resp_refusal := false |}.
Proof.
  unfold keyword_response. destruct docs as [|doc docs]; simpl; [discriminate|].
  destruct (doc_sections doc) as [[|sec secs]|]; simpl; try discriminate.
  destruct (doc_title doc) as [t|]; simpl; [|discriminate].
  destruct (doc_href doc) as [h|]; simpl; [|discriminate].
  destruct (sec_loc sec) as [l|]; simpl; [|discriminate].
  intros [= <-]. eauto.
Qed.

Lemma overlap_response_ok (doc : Document) (sec : DocSection)
    (r : AnswerResponse) :
  overlap_response doc sec = Ok r ->
  exists t h,
    r = {| resp_answer := get (sec_text sec) authorised_only;
           resp_citations :=
             [{| title := t; href := h; loc := get (sec_loc sec) [] |}];
           resp_socratic_prompts := [overlap_prompt];
           resp_refusal := false |}.
Proof.
  unfold overlap_response.
  destruct (doc_title doc) as [t|]; simpl; [|discriminate].
  destruct (doc_href doc) as [h|]; simpl; [|discriminate].
  intros [= <-]. eauto.
Qed.

(** C1 (as amended).  With the gate open, for every question whose
    normalised form contains one of the fixed keywords and every corpus
    whose first document has a title, an href and at least one section, the
    first of which has a loc, [answer] returns the hard-coded Task 1 / Week 4
    answer with refusal false and exactly one citation: the first document's
    title and href with its first section's loc. *)
Theorem keyword_path_cites_first_section
    (g : Globals) (req : AnswerRequest) (doc : Document)
    (rest : list Document) (sec : DocSection) (srest : list DocSection)
    (t h l : pystr) :
  KILLED g = false ->
  any_in keywords (normalized req) = true ->
  DOCS g = doc :: rest ->
  doc_sections doc = Some (sec :: srest) ->
  doc_title doc = Some t ->
  doc_href doc = Some h ->
  sec_loc sec = Some l ->
  answer g req =
    Ok {| resp_answer := task1_answer;
          resp_citations := [{| title := t; href := h; loc := l |}];
          resp_socratic_prompts := [task1_prompt];
          resp_refusal := false |}.
Proof.
  intros Hk Hkw Hd Hs Ht Hh Hl. unfold answer.
  rewrite Hk, Hkw, Hd. simpl. unfold keyword_response. simpl.
  rewrite Hs. simpl. rewrite Ht. simpl. rewrite Hh. simpl. rewrite Hl.
  reflexivity.
Qed.

(** C2.  With the gate open and no fixed keyword in the normalised
    question, the fallback returns on the first section, documents in corpus
    order and sections in order within a document, whose lower-cased text
    contains a question word of four characters or more: the answer is that
    section's text and the single citation is that document's title and
    href with that section's loc.  Whatever follows the section, in the same
    document or in later ones, plays no part. *)
Theorem overlap_first_match_wins
    (g : Globals) (req : AnswerRequest)
    (dpre dpost : list Document) (doc : Document)
    (spre spost : list DocSection) (sec : DocSection) (t h : pystr) :
  let q_words := q_words_of (normalized req) in
  KILLED g = false ->
  any_in keywords (normalized req) = false ->
  DOCS g = dpre ++ doc :: dpost ->
  (forall d, In d dpre -> quiet_document q_words d) ->
  get (doc_sections doc) [] = spre ++ sec :: spost ->
  (forall s, In s spre -> quiet_section q_words s) ->
  sec_hit q_words sec = true ->
  doc_title doc = Some t ->
  doc_href doc = Some h ->
  exists text,
    sec_text sec = Some text /\
    answer g req =
      Ok {| resp_answer := text;
            resp_citations :=
              [{| title := t; href := h; loc := get (sec_loc sec) [] |}];
            resp_socratic_prompts := [overlap_prompt];
            resp_refusal := false |}.
Proof.
  intros q_words Hk Hkw Hd Hq Hs Hsq Hh Ht Hhr.
  destruct (sec_hit_has_text _ _ Hh) as [text Htext].
  exists text. split; [exact Htext|].
  unfold answer. rewrite Hk, Hkw, Hd. simpl.
  fold q_words. rewrite (@scan_docs_first _ q_words dpre dpost doc spre spost sec Hq Hs Hsq Hh).
  unfold overlap_response. rewrite Ht, Hhr, Htext. reflexivity.
Qed.

(** C3.  With the gate open, a question that takes neither the keyword
    path (no fixed keyword, or an empty corpus) nor hits any section is
    refused: the response has refusal true, no citation, no prompt, and as
    answer the fixed message that points to "Assessment Guide v1.0,
    Section 1".  The empty question and the empty corpus are instances. *)
Theorem no_match_is_refused :
  let refusal :=
    {| resp_answer :=
         py "I can" ++ [8217%N] ++ py "t answer that from the unit" ++ [8217%N]
         ++ py "s authorised files. Try the Assessment Guide v1.0, Section 1.";
       resp_citations := [];
       resp_socratic_prompts := [];
       resp_refusal := true |} in
  (forall (g : Globals) (req : AnswerRequest),
      KILLED g = false ->
      any_in keywords (normalized req) = false \/ DOCS g = [] ->
      (forall d, In d (DOCS g) ->
                 quiet_document (q_words_of (normalized req)) d) ->
      answer g req = Ok refusal) /\
  (forall (g : Globals) (req : AnswerRequest),
      KILLED g = false ->
      question req = [] ->
      answer g req = Ok refusal) /\
  (forall (g : Globals) (req : AnswerRequest),
      KILLED g = false ->
      DOCS g = [] ->
      answer g req = Ok refusal).
Proof.
  intros refusal. change refusal with refusal_response. clear refusal.
  assert (General : forall g req,
      KILLED g = false ->
      any_in keywords (normalized req) = false \/ DOCS g = [] ->
      (forall d, In d (DOCS g) ->
                 quiet_document (q_words_of (normalized req)) d) ->
      answer g req = Ok refusal_response).
  { intros g req Hk Hpass Hq. unfold answer. rewrite Hk.
    assert (Hp : any_in keywords (normalized req) && truthy (DOCS g) = false).
    { destruct Hpass as [-> | ->]; [reflexivity | apply andb_false_r]. }
    rewrite Hp.
    rewrite (proj2 (scan_docs_none (q_words_of (normalized req)) (DOCS g)) Hq).
    reflexivity. }
  split; [exact General|]. split.
  - intros g req Hk Hq. unfold answer, normalized.
    rewrite Hk, Hq, lower_empty. simpl.
    change (q_words_of (strip [])) with (@nil pystr).
    assert (Hn : scan_docs [] (DOCS g) = None).
    { apply scan_docs_none. intros d _ s _. reflexivity. }
    rewrite Hn. reflexivity.
  - intros g req Hk Hd. apply General; [exact Hk | right; exact Hd |].
    rewrite Hd. intros d [].
Qed.

End AnswerFacts.

(** ** Shape of every response of [answer] *)

Section ResponseFacts.
Context {U : UnicodeDB}.

(** Where a response of [answer] comes from: the keyword path, a hit of
    the fallback, or the refusal. *)
Lemma answer_ok_cases (g : Globals) (req : AnswerRequest) (r : AnswerResponse) :
  answer g req = Ok r ->
  (any_in keywords (normalized req) && truthy (DOCS g) = true /\
   keyword_response (DOCS g) = Ok r) \/
  (any_in keywords (normalized req) && truthy (DOCS g) = false /\
   exists doc sec,
     In doc (DOCS g) /\ In sec (get (doc_sections doc) []) /\
     sec_hit (q_words_of (normalized req)) sec = true /\
     overlap_response doc sec = Ok r) \/
  (any_in keywords (normalized req) && truthy (DOCS g) = false /\
   r = refusal_response).
Proof.
  unfold answer. destruct (KILLED g); [discriminate|].
  destruct (any_in keywords (normalized req) && truthy (DOCS g)) eqn:Hp.
  - intros H. left. auto.
  - destruct (scan_docs (q_words_of (normalized req)) (DOCS g)) as [res|] eqn:Hs.
    + intros ->. right. left. split; [reflexivity|].
      apply scan_docs_some in Hs.
      destruct Hs as [dpre [doc [dpost [spre [sec [spost [Hd [_ [Hsec [_ [Hh E]]]]]]]]]]].
      exists doc, sec. rewrite Hd, Hsec. repeat split; auto using in_elt.
    + intros [= <-]. right. right. auto.
Qed.

(** C5 (as amended).  Every response of [answer] has refusal true exactly
    when it has no citation, and a refusal always carries the fixed refusal
    message.  The message implies a refusal provided no section of the
    corpus has that message as its text. *)
Theorem refusal_iff_no_citation
    (g : Globals) (req : AnswerRequest) (r : AnswerResponse) :
  answer g req = Ok r ->
  (resp_refusal r = true <-> resp_citations r = []) /\
  (resp_refusal r = true -> resp_answer r = refusal_answer) /\
  ((forall doc sec,
       In doc (DOCS g) -> In sec (get (doc_sections doc) []) ->
       sec_text sec <> Some refusal_answer) ->
   resp_answer r = refusal_answer -> resp_refusal r = true).
Proof.
  intros H. apply answer_ok_cases in H.
  destruct H as [[_ H] | [[_ [doc [sec [Hd [Hs [Hh H]]]]]] | [_ ->]]].
  - apply keyword_response_ok in H. destruct H as [t [h [l ->]]]. simpl.
    repeat split; try discriminate.
  - destruct (sec_hit_has_text _ _ Hh) as [text Htext].
    apply overlap_response_ok in H. destruct H as [t [h ->]]. simpl.
    repeat split; try discriminate.
    intros Hno E. rewrite Htext in E. simpl in E. subst text.
    exfalso. exact (Hno doc sec Hd Hs Htext).
  - simpl. repeat split; reflexivity.
Qed.

(** C10.  A section without a text key is never hit, so
    whenever the fallback answers, the answer is the text field of the
    section that was hit, a section of the corpus; the default of the
    lookup is never substituted. *)
Theorem overlap_answer_is_section_text :
  (forall (q : pystr) (sec : DocSection),
      sec_text sec = None -> sec_hit (q_words_of q) sec = false) /\
  (forall (g : Globals) (req : AnswerRequest) (r : AnswerResponse),
      answer g req = Ok r ->
      any_in keywords (normalized req) && truthy (DOCS g) = false ->
      resp_refusal r = false ->
      exists doc sec,
        In doc (DOCS g) /\ In sec (get (doc_sections doc) []) /\
        sec_hit (q_words_of (normalized req)) sec = true /\
        sec_text sec = Some (resp_answer r)).
Proof.
  split; [exact sec_hit_no_text|].
  intros g req r H Hp Hr. apply answer_ok_cases in H.
  destruct H as [[Hp' _] | [[_ [doc [sec [Hd [Hs [Hh H]]]]]] | [_ ->]]].
  - congruence.
  - exists doc, sec. repeat split; auto.
    destruct (sec_hit_has_text _ _ Hh) as [text Htext].
    apply overlap_response_ok in H. destruct H as [t [h ->]]. simpl.
    rewrite Htext. reflexivity.
  - discriminate.
Qed.


(** C8.  Two requests with the same question get the same result from
    [answer], whatever their role, context policy and mode. *)
Theorem answer_depends_on_question_only
    (g : Globals) (req1 req2 : AnswerRequest) :
  question req1 = question req2 -> answer g req1 = answer g req2.
Proof.
  intros E. unfold answer, normalized. rewrite E. reflexivity.
Qed.

(** C9.  The result of [answer] is determined by the question and the
    corpus: two calls with the same question, made while the corpus and the
    gate flag are the same, return identical results, whatever else differs
    between the two calls, in the requests or in the schedule. *)
Theorem same_question_same_corpus_same_result
    (g1 g2 : Globals) (req1 req2 : AnswerRequest) :
  KILLED g1 = KILLED g2 ->
  DOCS g1 = DOCS g2 ->
  question req1 = question req2 ->
  answer g1 req1 = answer g2 req2.
Proof.
  intros Hk Hd Hq. unfold answer, normalized.
  rewrite Hk, Hd, Hq. reflexivity.
Qed.

(** Outside the keyword path on a first document without sections, a
    well-formed corpus always gets a response. *)
Lemma answer_total_on_well_formed (g : Globals) (req : AnswerRequest) :
  KILLED g = false ->
  forallb well_formed_document (DOCS g) = true ->
  (any_in keywords (normalized req) = false \/
   DOCS g = [] \/
   exists doc rest sec srest,
     DOCS g = doc :: rest /\ doc_sections doc = Some (sec :: srest)) ->
  exists r, answer g req = Ok r.
Proof.
  intros Hk Hwf Hcase. unfold answer. rewrite Hk.
  destruct (any_in keywords (normalized req) && truthy (DOCS g)) eqn:Hp.
  - apply andb_true_iff in Hp. destruct Hp as [Hkw Ht].
    destruct Hcase as [Hc | [Hc | [doc [rest [sec [srest [Hd Hs]]]]]]].
    + congruence.
    + rewrite Hc in Ht. discriminate.
    + rewrite Hd in Hwf |- *. simpl in Hwf.
      apply andb_true_iff in Hwf. destruct Hwf as [Hdoc _].
      unfold well_formed_document in Hdoc. rewrite Hs in Hdoc. simpl in Hdoc.
      unfold well_formed_section, present in Hdoc.
      unfold keyword_response. simpl. rewrite Hs. simpl.
      destruct (doc_title doc); [|discriminate].
      destruct (doc_href doc); [|discriminate].
      destruct (sec_loc sec); [|discriminate].
      simpl. eauto.
  - destruct (scan_docs (q_words_of (normalized req)) (DOCS g)) as [res|] eqn:Hs;
      [|eauto].
    apply scan_docs_some in Hs.
    destruct Hs as [dpre [doc [dpost [spre [sec [spost [Hd [_ [_ [_ [_ ->]]]]]]]]]]].
    rewrite forallb_forall in Hwf.
    assert (Hdoc : well_formed_document doc = true).
    { apply Hwf. rewrite Hd. apply in_elt. }
    unfold well_formed_document, present in Hdoc. unfold overlap_response.
    destruct (doc_title doc); [|discriminate].
    destruct (doc_href doc); [|discriminate].
    simpl. eauto.
Qed.

End ResponseFacts.

(** ** The schedule lookup *)

Lemma find_items_skip (week : option ident) (pre rest : list WeekRecord) :
  (forall w, In w pre -> wk_week w <> week) ->
  find_items week (pre ++ rest) = find_items week rest.
Proof.
  induction pre as [|w pre IH]; intros Hne; simpl; [reflexivity|].
  destruct (ident_eqb (wk_week w) week) eqn:E.
  - apply ident_eqb_eq in E. exfalso. exact (Hne w (or_introl eq_refl) E).
  - apply IH. intros w' Hin. apply Hne. right. exact Hin.
Qed.



(** ** Concrete runs of the handlers *)

Lemma keyword_path_cites_first_section_witness :
  answer (open_with [guide; handbook]) (ask (py "When is Task 1 due?")) =
    Ok {| resp_answer := task1_answer;
          resp_citations :=
            [{| title := py "Guide"; href := py "/g"; loc := py "p.1" |}];
          resp_socratic_prompts := [task1_prompt];
          resp_refusal := false |}.
Proof.
  apply (@keyword_path_cites_first_section ascii_db
           (open_with [guide; handbook]) (ask (py "When is Task 1 due?"))
           guide [handbook]
           (mk_section "p.1" "Assessment overview and marking criteria") []
           (py "Guide") (py "/g") (py "p.1"));
    reflexivity.
Defined.

(** The keyword path on a first document whose sections are empty: the
    subscript [[0]] raises. *)
Lemma keyword_path_without_first_section :
  KILLED (open_with [bare]) = false /\
  any_in keywords (normalized (ask (py "When is Task 1 due?"))) = true /\
  DOCS (open_with [bare]) <> [] /\
  answer (open_with [bare]) (ask (py "When is Task 1 due?")) = Raise IndexError /\
  forall r, answer (open_with [bare]) (ask (py "When is Task 1 due?")) <> Ok r.
Proof.
  repeat split; try discriminate.
Qed.

Lemma overlap_first_match_wins_witness :
  exists text,
    sec_text (mk_section "s.2" "Marking criteria are published in the guide")
      = Some text /\
    answer (open_with [bare; handbook; guide])
           (ask (py "What are the MARKING rules?")) =
      Ok {| resp_answer := text;
            resp_citations :=
              [{| title := py "Handbook"; href := py "/h"; loc := py "s.2" |}];
            resp_socratic_prompts := [overlap_prompt];
            resp_refusal := false |}.
Proof.
  apply (@overlap_first_match_wins ascii_db
           (open_with [bare; handbook; guide])
           (ask (py "What are the MARKING rules?"))
           [bare] [guide] handbook
           [mk_section "s.1" "Welcome to the unit"]
           [mk_section "s.3" "Late penalties and marking criteria"]
           (mk_section "s.2" "Marking criteria are published in the guide")
           (py "Handbook") (py "/h")); try reflexivity.
  - intros d [<-|[]] s [].
  - intros s [<-|[]]. reflexivity.
Defined.

Lemma no_match_is_refused_witness :
  answer (open_with [guide]) (ask (py "asdf zzzz")) =
    Ok {| resp_answer :=
            py "I can" ++ [8217%N] ++ py "t answer that from the unit"
            ++ [8217%N]
            ++ py "s authorised files. Try the Assessment Guide v1.0, Section 1.";
          resp_citations := [];
          resp_socratic_prompts := [];
          resp_refusal := true |} /\
  answer (open_with [guide; handbook]) (ask []) =
    answer (open_with [guide]) (ask (py "asdf zzzz")) /\
  answer (open_with []) (ask (py "When is Task 1 due?")) =
    answer (open_with [guide]) (ask (py "asdf zzzz")).
Proof.
  destruct (@no_match_is_refused ascii_db)
    as [General [Empty_question Empty_corpus]].
  assert (First :
    answer (open_with [guide]) (ask (py "asdf zzzz")) =
      Ok {| resp_answer :=
              py "I can" ++ [8217%N] ++ py "t answer that from the unit"
              ++ [8217%N]
              ++ py "s authorised files. Try the Assessment Guide v1.0, Section 1.";
            resp_citations := [];
            resp_socratic_prompts := [];
            resp_refusal := true |}).
  { apply General; [reflexivity | left; reflexivity |].
    intros d [<-|[]] s [<-|[]]. reflexivity. }
  split; [exact First|]. rewrite First. split.
  - apply Empty_question; reflexivity.
  - apply Empty_corpus; reflexivity.
Defined.


Lemma refusal_iff_no_citation_witness :
  (resp_refusal refusal_response = true <-> resp_citations refusal_response = []) /\
  (resp_refusal refusal_response = true ->
   resp_answer refusal_response = refusal_answer) /\
  ((forall doc sec,
       In doc (DOCS (open_with [guide])) ->
       In sec (get (doc_sections doc) []) ->
       sec_text sec <> Some refusal_answer) ->
   resp_answer refusal_response = refusal_answer ->
   resp_refusal refusal_response = true).
Proof.
  apply (@refusal_iff_no_citation ascii_db
           (open_with [guide]) (ask (py "asdf zzzz")) refusal_response).
  reflexivity.
Defined.

(** A section whose text is the refusal message: the fallback returns the
    message with a citation and refusal false. *)
Lemma refusal_message_with_citation :
  answer (open_with [echo]) (ask (py "assessment guide")) =
    Ok {| resp_answer := refusal_answer;
          resp_citations :=
            [{| title := py "Notes"; href := py "/n"; loc := py "p.9" |}];
          resp_socratic_prompts := [overlap_prompt];
          resp_refusal := false |}.
Proof. reflexivity. Qed.

(** C6.  On a well-formed corpus whose first document has no section, a
    question with a fixed keyword makes [answer] raise [IndexError] instead
    of answering or refusing, although the fallback on the same corpus
    passes over that document and answers from the second one. *)
Theorem keyword_path_raises_on_empty_sections :
  forallb well_formed_document [bare; guide] = true /\
  answer (open_with [bare; guide]) (ask (py "Is the proposal marked?"))
    = Raise IndexError /\
  answer (open_with [bare; guide]) (ask (py "Which marking applies?")) =
    Ok {| resp_answer := py "Assessment overview and marking criteria";
          resp_citations :=
            [{| title := py "Guide"; href := py "/g"; loc := py "p.1" |}];
          resp_socratic_prompts := [overlap_prompt];
          resp_refusal := false |}.
Proof. repeat split. Qed.


Lemma answer_depends_on_question_only_witness :
  ask (py "What are the MARKING rules?")
    <> ask_as_staff (py "What are the MARKING rules?") /\
  answer (open_with [guide]) (ask (py "What are the MARKING rules?")) =
  answer (open_with [guide]) (ask_as_staff (py "What are the MARKING rules?")).
Proof.
  split; [discriminate|].
  apply (@answer_depends_on_question_only ascii_db). reflexivity.
Defined.

Lemma same_question_same_corpus_same_result_witness :
  MOCK (open_with [handbook; guide]) <> MOCK (with_docs schedule4 [handbook; guide]) /\
  ask (py "What are the MARKING rules?")
    <> ask_as_staff (py "What are the MARKING rules?") /\
  answer (open_with [handbook; guide]) (ask (py "What are the MARKING rules?"))
  = answer (with_docs schedule4 [handbook; guide])
           (ask_as_staff (py "What are the MARKING rules?")).
Proof.
  split; [discriminate|]. split; [discriminate|].
  apply (@same_question_same_corpus_same_result ascii_db); reflexivity.
Defined.

Lemma overlap_answer_is_section_text_witness :
  exists doc sec,
    In doc (DOCS (open_with [handbook])) /\
    In sec (get (doc_sections doc) []) /\
    sec_hit (q_words_of (normalized (ask (py "late penalties?")))) sec = true /\
    sec_text sec = Some (py "Late penalties and marking criteria").
Proof.
  destruct (@overlap_answer_is_section_text ascii_db) as [_ Present].
  apply (Present (open_with [handbook]) (ask (py "late penalties?"))
           {| resp_answer := py "Late penalties and marking criteria";
              resp_citations :=
                [{| title := py "Handbook"; href := py "/h"; loc := py "s.3" |}];
              resp_socratic_prompts := [overlap_prompt];
              resp_refusal := false |});
    reflexivity.
Defined.

Example nxt_absent_week :
  nxt schedule4 (ask_week (IInt 99)) =
    Ok {| checklist := [no_milestones];
          refs := [{| ref_title := py "mock_dates.json";
                      ref_loc := py "week:99" |}] |}.
Proof. reflexivity. Qed.

Example nxt_empty_milestones :
  nxt schedule4 (ask_week (IInt 5)) =
    Ok {| checklist := [no_milestones];
          refs := [{| ref_title := py "mock_dates.json";
                      ref_loc := py "week:5" |}] |}.
Proof. reflexivity. Qed.

Example nxt_without_week :
  nxt schedule4 {| next_role := py "student"; state := [] |} =
    Ok {| checklist := [no_milestones];
          refs := [{| ref_title := py "mock_dates.json";
                      ref_loc := py "week:None" |}] |}.
Proof. reflexivity. Qed.

Example startup_defaults :
  startup None None None =
    {| KILLED := false; MOCK := {| weeks := Some [] |}; DOCS := [] |} /\
  KILLED (startup (Some (py "TRUE")) None None) = true.
Proof. split; reflexivity. Qed.

(** ** Words of a question

    What [q.replace("?", " ").split()] and the length filter keep. *)

Lemma replace_char_length (a b : char) (s : pystr) :
  List.length (replace_char a b s) = List.length s.
Proof. apply length_map. Qed.

Lemma replace_char_removes (a b : char) (s : pystr) :
  a <> b -> ~ In a (replace_char a b s).
Proof.
  intros Hab Hin. unfold replace_char in Hin. apply in_map_iff in Hin.
  destruct Hin as [c [E _]]. destruct (N.eqb c a) eqn:Hc.
  - apply Hab. symmetry. exact E.
  - apply N.eqb_neq in Hc. apply Hc. exact E.
Qed.

Lemma contains_length (sub s : pystr) :
  contains sub s = true -> List.length sub <= List.length s.
Proof.
  intros H. apply contains_spec in H. destruct H as [a [b ->]].
  rewrite !length_app. lia.
Qed.

Lemma contains_member (sub s : pystr) (c : char) :
  contains sub s = true -> In c sub -> In c s.
Proof.
  intros H Hin. apply contains_spec in H. destruct H as [a [b ->]].
  apply in_or_app. right. apply in_or_app. left. exact Hin.
Qed.

Section SplitFacts.
Context {U : UnicodeDB}.

(** Each word cut by [split_from] is non-empty, free of whitespace, and a
    piece of the run being read followed by the rest of the string. *)
Lemma split_from_words (s cur w : pystr) :
  (forall c, In c cur -> isspace c = false) ->
  In w (split_from cur s) ->
  w <> [] /\
  (forall c, In c w -> isspace c = false) /\
  contains w (rev cur ++ s) = true.
Proof.
  revert cur. induction s as [|c s IH]; intros cur Hcur Hin; simpl in Hin.
  - destruct cur as [|x cur]; [destruct Hin|].
    destruct Hin as [<-|[]]. split; [|split].
    + intros E. apply (f_equal (@List.length char)) in E.
      rewrite length_rev in E. discriminate.
    + intros c Hc. apply Hcur. apply in_rev. exact Hc.
    + apply contains_spec. exists [], []. rewrite app_nil_r. reflexivity.
  - destruct (isspace c) eqn:Hsp.
    + assert (Hrest : In w (split_from [] s) ->
                      w <> [] /\ (forall c0, In c0 w -> isspace c0 = false) /\
                      contains w (rev cur ++ c :: s) = true).
      { intros Hw. destruct (IH [] (fun _ F => match F with end) Hw)
          as [Hne [Hsf Hc]].
        split; [exact Hne|]. split; [exact Hsf|].
        apply contains_spec in Hc. destruct Hc as [a [b E]]. simpl in E.
        apply contains_spec. exists (rev cur ++ c :: a), b.
        rewrite E, <- app_assoc. reflexivity. }
      destruct cur as [|x cur]; [exact (Hrest Hin)|].
      destruct Hin as [<-|Hin]; [|exact (Hrest Hin)].
      split; [|split].
      * intros E. apply (f_equal (@List.length char)) in E.
        rewrite length_rev in E. discriminate.
      * intros c0 Hc. apply Hcur. apply in_rev. exact Hc.
      * apply contains_spec. exists [], (c :: s). reflexivity.
    + assert (Hcur' : forall c0, In c0 (c :: cur) -> isspace c0 = false).
      { intros c0 [<-|Hc]; auto. }
      destruct (IH (c :: cur) Hcur' Hin) as [Hne [Hsf Hc]].
      split; [exact Hne|]. split; [exact Hsf|].
      simpl in Hc. rewrite <- app_assoc in Hc. exact Hc.
Qed.

Lemma split_from_concat (s cur : pystr) :
  List.concat (split_from cur s)
  = rev cur ++ filter (fun c => negb (isspace c)) s.
Proof.
  revert cur. induction s as [|c s IH]; intros cur; simpl.
  - destruct cur; simpl; rewrite ?app_nil_r; reflexivity.
  - destruct (isspace c) eqn:Hsp; simpl.
    + destruct cur as [|x cur].
      * rewrite IH. reflexivity.
      * simpl List.concat. rewrite IH. reflexivity.
    + rewrite IH. simpl. rewrite <- app_assoc. reflexivity.
Qed.

(** X1.  Splitting a string loses its whitespace and nothing else: the
    words, put end to end, are the string without its whitespace
    characters; and no word is empty or contains whitespace. *)
Theorem split_loses_only_whitespace (s : pystr) :
  List.concat (split s) = filter (fun c => negb (isspace c)) s /\
  (forall w, In w (split s) ->
     w <> [] /\ forall c, In c w -> isspace c = false).
Proof.
  split.
  - unfold split. rewrite split_from_concat. reflexivity.
  - intros w Hin.
    destruct (split_from_words s [] w (fun _ F => match F with end) Hin)
      as [Hne [Hsf _]].
    auto.
Qed.

(** X2.  Every word the fallback searches for has four characters or
    more, contains no whitespace and no question mark, and occurs in the
    normalised question once its question marks are turned into spaces; so
    it is no longer than the question. *)
Theorem fallback_words_are_long_runs (q w : pystr) :
  In w (q_words_of q) ->
  4 <= List.length w /\
  (forall c, In c w -> isspace c = false) /\
  ~ In 63%N w /\
  contains w (replace_char 63%N 32%N q) = true /\
  List.length w <= List.length q.
Proof.
  intros Hin. pose proof (q_words_of_long _ _ Hin) as Hlen.
  unfold q_words_of in Hin. apply filter_In in Hin. destruct Hin as [Hin _].
  destruct (split_from_words _ [] w (fun _ F => match F with end) Hin)
    as [_ [Hsf Hc]].
  simpl in Hc. split; [exact Hlen|]. split; [exact Hsf|]. split; [|split].
  - intros H63. apply (contains_member _ _ _ Hc) in H63.
    revert H63. apply replace_char_removes. discriminate.
  - exact Hc.
  - apply contains_length in Hc. rewrite replace_char_length in Hc. exact Hc.
Qed.

End SplitFacts.

(** ** Further facts about [answer] *)

Lemma keywords_long (k : pystr) : In k keywords -> 3 <= List.length k.
Proof.
  unfold keywords. simpl.
  intros [<-|[<-|[<-|[<-|[<-|[]]]]]]; simpl; lia.
Qed.

Section AnswerExtras.
Context {U : UnicodeDB}.

Lemma q_word_occurs (q w : pystr) :
  In w (q_words_of q) -> contains w (replace_char 63%N 32%N q) = true.
Proof.
  intros Hin. unfold q_words_of in Hin. apply filter_In in Hin.
  destruct Hin as [Hin _].
  destruct (split_from_words _ [] w (fun _ F => match F with end) Hin)
    as [_ [_ Hc]].
  exact Hc.
Qed.

Lemma q_words_of_short (q : pystr) : List.length q < 4 -> q_words_of q = [].
Proof.
  intros Hq. destruct (q_words_of q) as [|w ws] eqn:E; [reflexivity|].
  assert (Hin : In w (q_words_of q)) by (rewrite E; left; reflexivity).
  pose proof (q_words_of_long _ _ Hin) as Hlen.
  apply q_word_occurs, contains_length in Hin.
  rewrite replace_char_length in Hin. lia.
Qed.

Lemma scan_docs_no_words (docs : list Document) : scan_docs [] docs = None.
Proof. apply scan_docs_none. intros d _ s _. reflexivity. Qed.

Lemma scan_docs_app_some (ws : list pystr) (docs more : list Document)
    (res : result AnswerResponse) :
  scan_docs ws docs = Some res -> scan_docs ws (docs ++ more) = Some res.
Proof.
  induction docs as [|d docs IH]; simpl; [discriminate|].
  destruct (scan_sections ws d (get (doc_sections d) [])); auto.
Qed.

Lemma keyword_response_inv (docs : list Document) (r : AnswerResponse) :
  keyword_response docs = Ok r ->
  exists doc rest sec srest t h l,
    docs = doc :: rest /\ doc_sections doc = Some (sec :: srest) /\
    doc_title doc = Some t /\ doc_href doc = Some h /\ sec_loc sec = Some l /\
    r = {| resp_answer := task1_answer;
           resp_citations := [{| title := t; href := h; loc := l |}];
           resp_socratic_prompts := [task1_prompt];
           resp_refusal := false |}.
Proof.
  unfold keyword_response. destruct docs as [|doc docs]; simpl; [discriminate|].
  destruct (doc_sections doc) as [[|sec secs]|] eqn:Es; simpl; try discriminate.
  destruct (doc_title doc) as [t|] eqn:Et; simpl; [|discriminate].
  destruct (doc_href doc) as [h|] eqn:Eh; simpl; [|discriminate].
  destruct (sec_loc sec) as [l|] eqn:El; simpl; [|discriminate].
  intros [= <-]. exists doc, docs, sec, secs, t, h, l. repeat split; auto.
Qed.

Lemma keyword_response_raise (docs : list Document) (e : exn) :
  keyword_response docs = Raise e ->
  (e = IndexError /\
   (docs = [] \/ exists doc rest, docs = doc :: rest /\ doc_sections doc = Some [])) \/
  (e = KeyError (py "sections") /\
   exists doc rest, docs = doc :: rest /\ doc_sections doc = None) \/
  (e = KeyError (py "title") /\
   exists doc rest, docs = doc :: rest /\ doc_title doc = None) \/
  (e = KeyError (py "href") /\
   exists doc rest, docs = doc :: rest /\ doc_href doc = None) \/
  (e = KeyError (py "loc") /\
   exists doc rest sec srest,
     docs = doc :: rest /\ doc_sections doc = Some (sec :: srest) /\
     sec_loc sec = None).
Proof.
  unfold keyword_response. destruct docs as [|doc docs]; simpl.
  { intros [= <-]. left. auto. }
  destruct (doc_sections doc) as [[|sec secs]|] eqn:Es; simpl.
  - intros [= <-]. left. split; [reflexivity|]. right. eauto.
  - destruct (doc_title doc) as [t|] eqn:Et; simpl.
    + destruct (doc_href doc) as [h|] eqn:Eh; simpl.
      * destruct (sec_loc sec) as [l|] eqn:El; simpl; [discriminate|].
        intros [= <-]. do 4 right. split; [reflexivity|].
        exists doc, docs, sec, secs. auto.
      * intros [= <-]. do 3 right. left. split; [reflexivity|]. eauto.
    + intros [= <-]. do 2 right. left. split; [reflexivity|]. eauto.
  - intros [= <-]. right. left. split; [reflexivity|]. eauto.
Qed.

Lemma overlap_response_inv (doc : Document) (sec : DocSection)
    (r : AnswerResponse) :
  overlap_response doc sec = Ok r ->
  exists t h,
    doc_title doc = Some t /\ doc_href doc = Some h /\
    r = {| resp_answer := get (sec_text sec) authorised_only;
           resp_citations :=
             [{| title := t; href := h; loc := get (sec_loc sec) [] |}];
           resp_socratic_prompts := [overlap_prompt];
           resp_refusal := false |}.
Proof.
  unfold overlap_response.
  destruct (doc_title doc) as [t|]; simpl; [|discriminate].
  destruct (doc_href doc) as [h|]; simpl; [|discriminate].
  intros [= <-]. eauto.
Qed.

Lemma overlap_response_raise (doc : Document) (sec : DocSection) (e : exn) :
  overlap_response doc sec = Raise e ->
  (e = KeyError (py "title") /\ doc_title doc = None) \/
  (e = KeyError (py "href") /\ doc_href doc = None).
Proof.
  unfold overlap_response.
  destruct (doc_title doc) as [t|]; simpl.
  - destruct (doc_href doc) as [h|]; simpl; [discriminate|].
    intros [= <-]. right. auto.
  - intros [= <-]. left. auto.
Qed.

(** Where an exception of [answer] comes from, the gate being open. *)
Lemma answer_raise_cases (g : Globals) (req : AnswerRequest) (e : exn) :
  KILLED g = false ->
  answer g req = Raise e ->
  (any_in keywords (normalized req) && truthy (DOCS g) = true /\
   keyword_response (DOCS g) = Raise e) \/
  (any_in keywords (normalized req) && truthy (DOCS g) = false /\
   exists doc sec,
     In doc (DOCS g) /\ In sec (get (doc_sections doc) []) /\
     sec_hit (q_words_of (normalized req)) sec = true /\
     overlap_response doc sec = Raise e).
Proof.
  intros Hk. unfold answer. rewrite Hk.
  destruct (any_in keywords (normalized req) && truthy (DOCS g)) eqn:Hp.
  - intros H. left. auto.
  - destruct (scan_docs (q_words_of (normalized req)) (DOCS g)) as [res|] eqn:Hs;
      [|discriminate].
    intros ->. right. split; [reflexivity|].
    apply scan_docs_some in Hs.
    destruct Hs as [dpre [doc [dpost [spre [sec [spost [Hd [_ [Hsec [_ [Hh E]]]]]]]]]]].
    exists doc, sec. rewrite Hd, Hsec. repeat split; auto using in_elt.
Qed.

End AnswerExtras.

Section AnswerProperties.
Context {U : UnicodeDB}.

(** X3.  With the gate open, a question whose normalised form has fewer
    than four characters and does not contain "due" is refused whatever the
    corpus: it is too short for any other keyword and for any fallback
    word. *)
Theorem short_question_is_refused (g : Globals) (req : AnswerRequest) :
  KILLED g = false ->
  List.length (normalized req) < 4 ->
  contains (py "due") (normalized req) = false ->
  answer g req = Ok refusal_response.
Proof.
  intros Hk Hlen Hdue. unfold answer. rewrite Hk.
  assert (Hkw : any_in keywords (normalized req) = false).
  { unfold keywords, any_in. simpl. rewrite Hdue.
    repeat match goal with
    | |- context [contains ?k (normalized req)] =>
        lazymatch k with
        | py "due" => fail
        | _ =>
          let E := fresh "E" in
          destruct (contains k (normalized req)) eqn:E;
          [apply contains_length in E; simpl in E; lia|]
        end
    end.
    reflexivity. }
  rewrite Hkw. simpl. rewrite (q_words_of_short _ Hlen), scan_docs_no_words.
  reflexivity.
Qed.

(** X4.  [answer] reads the gate flag, the corpus and the normalised
    question, and nothing else: two calls that agree on these three agree on
    the result, whatever the case and the surrounding whitespace of the
    questions, the other fields of the request and the schedule. *)
Theorem answer_reads_normalized_question
    (g1 g2 : Globals) (req1 req2 : AnswerRequest) :
  KILLED g1 = KILLED g2 ->
  DOCS g1 = DOCS g2 ->
  normalized req1 = normalized req2 ->
  answer g1 req1 = answer g2 req2.
Proof.
  intros Hk Hd Hq. unfold answer. rewrite Hk, Hd, Hq. reflexivity.
Qed.

(** X5.  Every citation of a response points into the corpus: its title and
    href are those of a document of the corpus and its loc is the loc of a
    section of that document (the empty string when the fallback cites a
    section without one). *)
Theorem citations_point_into_corpus
    (g : Globals) (req : AnswerRequest) (r : AnswerResponse) (c : Citation) :
  answer g req = Ok r ->
  In c (resp_citations r) ->
  exists doc sec,
    In doc (DOCS g) /\ In sec (get (doc_sections doc) []) /\
    doc_title doc = Some (title c) /\ doc_href doc = Some (href c) /\
    get (sec_loc sec) [] = loc c.
Proof.
  intros H Hc. apply answer_ok_cases in H.
  destruct H as [[_ H] | [[_ [doc [sec [Hd [Hs [_ H]]]]]] | [_ ->]]].
  - apply keyword_response_inv in H.
    destruct H as [doc [rest [sec [srest [t [h [l [Hd [Hs [Ht [Hh [Hl ->]]]]]]]]]]]].
    destruct Hc as [<-|[]]. exists doc, sec. rewrite Hd, Hs, Hl. simpl. auto 10.
  - apply overlap_response_inv in H. destruct H as [t [h [Ht [Hh ->]]]].
    destruct Hc as [<-|[]]. exists doc, sec. simpl. auto 10.
  - destruct Hc.
Qed.

(** X6.  A response has as many prompts as citations, and at most one of
    each. *)
Theorem one_prompt_per_citation
    (g : Globals) (req : AnswerRequest) (r : AnswerResponse) :
  answer g req = Ok r ->
  List.length (resp_socratic_prompts r) = List.length (resp_citations r) /\
  List.length (resp_citations r) <= 1.
Proof.
  intros H. apply answer_ok_cases in H.
  destruct H as [[_ H] | [[_ [doc [sec [_ [_ [_ H]]]]]] | [_ ->]]].
  - apply keyword_response_ok in H. destruct H as [t [h [l ->]]]. simpl. lia.
  - apply overlap_response_ok in H. destruct H as [t [h ->]]. simpl. lia.
  - simpl. lia.
Qed.

(** X7.  When the fallback answers, the answer, lower-cased, and the
    normalised question with its question marks turned into spaces share a
    run of four characters or more. *)
Theorem fallback_answer_shares_a_word
    (g : Globals) (req : AnswerRequest) (r : AnswerResponse) :
  answer g req = Ok r ->
  any_in keywords (normalized req) && truthy (DOCS g) = false ->
  resp_refusal r = false ->
  exists w,
    4 <= List.length w /\
    contains w (replace_char 63%N 32%N (normalized req)) = true /\
    contains w (lower (resp_answer r)) = true.
Proof.
  intros H Hp Hr. apply answer_ok_cases in H.
  destruct H as [[Hp' _] | [[_ [doc [sec [_ [_ [Hh H]]]]]] | [_ ->]]].
  - congruence.
  - destruct (sec_hit_has_text _ _ Hh) as [text Htext].
    apply overlap_response_ok in H. destruct H as [t [h ->]]. simpl.
    unfold sec_hit in Hh. rewrite Htext in *. simpl in *.
    apply any_in_spec in Hh. destruct Hh as [w [Hin Hc]].
    exists w. split; [exact (q_words_of_long _ _ Hin)|].
    split; [exact (q_word_occurs _ _ Hin) | exact Hc].
  - discriminate.
Qed.

(** X8.  Appending documents to the corpus never changes an answer that is
    not a refusal: the first match still wins. *)
Theorem appended_documents_keep_answer
    (g : Globals) (docs more : list Document)
    (req : AnswerRequest) (r : AnswerResponse) :
  answer (with_docs g docs) req = Ok r ->
  resp_refusal r = false ->
  answer (with_docs g (docs ++ more)) req = Ok r.
Proof.
  unfold answer, with_docs. cbn [KILLED DOCS].
  destruct (KILLED g); [discriminate|].
  destruct (any_in keywords (normalized req)) eqn:Hkw; cbn [andb].
  - destruct docs as [|d docs]; cbn [truthy app scan_docs].
    + intros E Hr. injection E as <-. discriminate Hr.
    + auto.
  - destruct (scan_docs (q_words_of (normalized req)) docs) as [res|] eqn:Hs.
    + rewrite (scan_docs_app_some _ _ more Hs). auto.
    + intros E Hr. injection E as <-. discriminate Hr.
Qed.

(** X9.  The keyword path looks at the first document only and not at
    which keyword was found: two questions with a keyword each get the same
    result on two corpora with the same first document. *)
Theorem keyword_path_reads_first_document
    (g : Globals) (doc : Document) (rest1 rest2 : list Document)
    (req1 req2 : AnswerRequest) :
  any_in keywords (normalized req1) = true ->
  any_in keywords (normalized req2) = true ->
  answer (with_docs g (doc :: rest1)) req1
  = answer (with_docs g (doc :: rest2)) req2.
Proof.
  intros H1 H2. unfold answer, with_docs. cbn [KILLED DOCS].
  rewrite H1, H2. reflexivity.
Qed.

End AnswerProperties.

(** ** Exceptions of [answer] *)

Section AnswerErrors.
Context {U : UnicodeDB}.

(** X11.  On a corpus of well-formed documents, the gate being open,
    [answer] raises exactly when the question has a keyword and the first
    document has an empty list of sections, and what it raises then is
    [IndexError]. *)
Theorem answer_raises_only_on_empty_sections
    (g : Globals) (req : AnswerRequest) :
  KILLED g = false ->
  forallb well_formed_document (DOCS g) = true ->
  (forall e, answer g req = Raise e -> e = IndexError) /\
  (answer g req = Raise IndexError <->
   any_in keywords (normalized req) = true /\
   exists doc rest, DOCS g = doc :: rest /\ doc_sections doc = Some []).
Proof.
  intros Hk Hwf.
  assert (Only : forall e, answer g req = Raise e ->
            e = IndexError /\
            any_in keywords (normalized req) = true /\
            exists doc rest, DOCS g = doc :: rest /\ doc_sections doc = Some []).
  { intros e H. apply (answer_raise_cases _ _ Hk) in H.
    destruct H as [[Hp H] | [_ [doc [sec [Hd [_ [_ H]]]]]]].
    - apply andb_true_iff in Hp. destruct Hp as [Hkw Ht].
      apply keyword_response_raise in H.
      assert (Hfirst : forall doc rest, DOCS g = doc :: rest ->
                well_formed_document doc = true).
      { intros doc rest E. rewrite E in Hwf. simpl in Hwf.
        apply andb_true_iff in Hwf. tauto. }
      destruct H as [[-> [E | E]] | [[_ [doc [rest [E Hn]]]] |
                    [[_ [doc [rest [E Hn]]]] | [[_ [doc [rest [E Hn]]]] |
                    [_ [doc [rest [sec [srest [E [Hs Hn]]]]]]]]]]].
      + rewrite E in Ht. discriminate.
      + auto.
      + specialize (Hfirst _ _ E). unfold well_formed_document in Hfirst.
        rewrite Hn, andb_false_r in Hfirst. discriminate.
      + specialize (Hfirst _ _ E). unfold well_formed_document in Hfirst.
        rewrite Hn in Hfirst. discriminate.
      + specialize (Hfirst _ _ E). unfold well_formed_document in Hfirst.
        rewrite Hn, andb_false_r in Hfirst. discriminate.
      + specialize (Hfirst _ _ E). unfold well_formed_document in Hfirst.
        rewrite Hs in Hfirst. simpl in Hfirst. unfold well_formed_section in Hfirst.
        rewrite Hn in Hfirst. simpl in Hfirst. rewrite andb_false_r in Hfirst.
        discriminate.
    - rewrite forallb_forall in Hwf. specialize (Hwf doc Hd).
      unfold well_formed_document in Hwf. apply overlap_response_raise in H.
      destruct H as [[_ Hn] | [_ Hn]]; rewrite Hn in Hwf;
        rewrite ?andb_false_r in Hwf; discriminate. }
  split.
  - intros e H. apply (Only e H).
  - split.
    + intros H. apply (Only _ H).
    + intros [Hkw [doc [rest [E Hs]]]]. unfold answer.
      rewrite Hk, Hkw, E. simpl. unfold keyword_response. simpl.
      rewrite Hs. reflexivity.
Qed.

(** X12.  The fallback gets by without the optional keys: when the
    question has no keyword and every document has a title and an href,
    [answer] returns a response even if documents lack their sections and
    sections lack their loc or text. *)
Theorem fallback_tolerates_missing_keys (g : Globals) (req : AnswerRequest) :
  KILLED g = false ->
  any_in keywords (normalized req) = false ->
  forallb citable (DOCS g) = true ->
  exists r, answer g req = Ok r.
Proof.
  intros Hk Hkw Hc. destruct (answer g req) as [r|e] eqn:H; [eauto|].
  apply (answer_raise_cases _ _ Hk) in H. rewrite Hkw in H. simpl in H.
  destruct H as [[F _] | [_ [doc [sec [Hd [_ [_ H]]]]]]]; [discriminate|].
  rewrite forallb_forall in Hc. specialize (Hc doc Hd). unfold citable in Hc.
  apply overlap_response_raise in H.
  destruct H as [[_ Hn] | [_ Hn]]; rewrite Hn in Hc;
    rewrite ?andb_false_r in Hc; discriminate.
Qed.

(** X13.  Start-up without data: when the switch is off and the corpus
    file cannot be loaded every question is refused, keywords or not; when
    the schedule file cannot be loaded every week gets the placeholder. *)
Theorem startup_without_data (var : option pystr) :
  killed_of_env var = false ->
  (forall mock_file req,
      answer (startup var mock_file None) req = Ok refusal_response) /\
  (forall docs_file req,
      nxt (startup var None docs_file) req =
        Ok {| checklist := [no_milestones];
              refs := [{| ref_title := py "mock_dates.json";
                          ref_loc := py "week:" ++
                            format_ident (dict_get (py "week") (state req)) |}] |}).
Proof.
  intros Hk. split.
  - intros mock_file req. unfold answer, startup. cbn [KILLED DOCS get].
    rewrite Hk, andb_false_r. reflexivity.
  - intros docs_file req. unfold nxt, startup. cbn [KILLED MOCK get weeks].
    rewrite Hk. reflexivity.
Qed.

End AnswerErrors.

(** ** Further facts about [nxt] *)

Lemma find_items_found (week : option ident) (ws : list WeekRecord)
    (m : pystr) (ms : list pystr) :
  find_items week ws = m :: ms ->
  exists w, In w ws /\ wk_week w = week /\ wk_milestones w = Some (m :: ms).
Proof.
  induction ws as [|w ws IH]; simpl; [discriminate|].
  destruct (ident_eqb (wk_week w) week) eqn:E.
  - apply ident_eqb_eq in E. intros H. exists w. split; [left; reflexivity|].
    split; [exact E|]. destruct (wk_milestones w); simpl in H; [congruence|discriminate].
  - intros H. destruct (IH H) as [w' [Hin Hw]]. exists w'. split; [right|]; auto.
Qed.

Lemma find_items_app (week : option ident) (ws more : list WeekRecord) :
  (exists w, In w ws /\ wk_week w = week) ->
  find_items week (ws ++ more) = find_items week ws.
Proof.
  induction ws as [|w ws IH]; intros [w' [Hin Hw]]; simpl; [destruct Hin|].
  destruct (ident_eqb (wk_week w) week) eqn:E; [reflexivity|].
  apply IH. destruct Hin as [<-|Hin].
  - apply ident_eqb_eq in Hw. congruence.
  - eauto.
Qed.

Lemma py_injective (s t : string) : py s = py t -> s = t.
Proof.
  unfold py. intros H.
  rewrite <- (string_of_list_ascii_of_string s),
          <- (string_of_list_ascii_of_string t).
  f_equal. revert H.
  generalize (list_ascii_of_string s) (list_ascii_of_string t).
  intros a. induction a as [|x a IH]; intros [|y b]; simpl; try discriminate.
  - reflexivity.
  - intros [= Hx Hr]. f_equal; [|auto].
    rewrite <- (ascii_N_embedding x), <- (ascii_N_embedding y), Hx. reflexivity.
Qed.

(** The decimal rendering of an integer determines it. *)
Lemma str_of_int_injective (a b : Z) : str_of_int a = str_of_int b -> a = b.
Proof.
  unfold str_of_int. intros H. apply py_injective in H.
  assert (Hn : forall z, Z.to_int z <> Decimal.Pos Decimal.Nil /\
                         Z.to_int z <> Decimal.Neg Decimal.Nil).
  { intros [|p|p]; simpl; split; try discriminate;
      intros [= E]; exact (DecimalPos.Unsigned.to_uint_nonnil p E). }
  apply (f_equal NilZero.int_of_string) in H.
  rewrite !NilZero.isi in H by apply Hn.
  injection H as H. apply (f_equal Z.of_int) in H.
  rewrite !DecimalZ.of_to in H. exact H.
Qed.

(** X14.  With the gate open [nxt] always returns: the checklist is never
    empty, refs has exactly one entry, and the checklist is either the
    placeholder alone or the milestones of a record of the schedule whose
    week is the queried one. *)
Theorem nxt_checklist_never_empty (g : Globals) (req : NextRequest) :
  KILLED g = false ->
  exists r,
    nxt g req = Ok r /\
    checklist r <> [] /\
    List.length (refs r) = 1 /\
    (checklist r = [no_milestones] \/
     exists w, In w (get (weeks (MOCK g)) []) /\
               wk_week w = dict_get (py "week") (state req) /\
               wk_milestones w = Some (checklist r)).
Proof.
  intros Hk. unfold nxt. rewrite Hk. eexists. split; [reflexivity|]. simpl.
  destruct (find_items (dict_get (py "week") (state req))
              (get (weeks (MOCK g)) [])) as [|m ms] eqn:E; simpl.
  - repeat split; [discriminate | left; reflexivity].
  - repeat split; [discriminate|]. right. apply find_items_found. exact E.
Qed.

(** X15.  [nxt] reads the gate flag, the schedule and the "week" entry of
    the state, and nothing else: two calls that agree on these agree on the
    result, whatever the role, the other entries of the state and the
    corpus. *)
Theorem nxt_reads_week_only (g1 g2 : Globals) (req1 req2 : NextRequest) :
  KILLED g1 = KILLED g2 ->
  weeks (MOCK g1) = weeks (MOCK g2) ->
  dict_get (py "week") (state req1) = dict_get (py "week") (state req2) ->
  nxt g1 req1 = nxt g2 req2.
Proof.
  intros Hk Hw Hs. unfold nxt. rewrite Hk, Hw, Hs. reflexivity.
Qed.

(** X16.  A state without a "week" entry queries the week [None]: it gets
    the milestones of the first record that has no "week" key, when they
    are not empty, and the loc "week:None". *)
Theorem nxt_without_week_matches_undated
    (g : Globals) (req : NextRequest) (pre post : list WeekRecord)
    (w : WeekRecord) (m : pystr) (ms : list pystr) :
  KILLED g = false ->
  dict_get (py "week") (state req) = None ->
  get (weeks (MOCK g)) [] = pre ++ w :: post ->
  (forall w', In w' pre -> wk_week w' <> None) ->
  wk_week w = None ->
  wk_milestones w = Some (m :: ms) ->
  nxt g req =
    Ok {| checklist := m :: ms;
          refs := [{| ref_title := py "mock_dates.json";
                      ref_loc := py "week:None" |}] |}.
Proof.
  intros Hk Hs Hw Hpre Hnone Hm. unfold nxt. rewrite Hk, Hs, Hw.
  rewrite (@find_items_skip None pre (w :: post) Hpre). simpl.
  rewrite Hnone, Hm. reflexivity.
Qed.

(** X17.  For integer weeks the loc of the ref determines the week that
    was queried: two queries with the same refs asked for the same
    integer. *)
Theorem integer_week_read_back_from_ref
    (g : Globals) (req1 req2 : NextRequest) (a b : Z)
    (r1 r2 : ChecklistResult) :
  dict_get (py "week") (state req1) = Some (IInt a) ->
  dict_get (py "week") (state req2) = Some (IInt b) ->
  nxt g req1 = Ok r1 ->
  nxt g req2 = Ok r2 ->
  refs r1 = refs r2 ->
  a = b.
Proof.
  unfold nxt. intros Ha Hb. rewrite Ha, Hb.
  destruct (KILLED g); [discriminate|].
  intros [= <-] [= <-]. simpl. intros [= H].
  apply str_of_int_injective. exact H.
Qed.

(** X18.  Once a record of the schedule has the queried week, records
    appended to the schedule do not change the result. *)
Theorem appended_weeks_keep_checklist
    (g : Globals) (ws more : list WeekRecord) (req : NextRequest) :
  (exists w, In w ws /\ wk_week w = dict_get (py "week") (state req)) ->
  nxt (with_weeks g (Some (ws ++ more))) req
  = nxt (with_weeks g (Some ws)) req.
Proof.
  intros H. unfold nxt, with_weeks. cbn [KILLED MOCK weeks get].
  rewrite (@find_items_app _ _ more H). reflexivity.
Qed.

(** ** Concrete runs of the further facts *)

Lemma split_loses_only_whitespace_witness :
  List.concat (split (py "  when is   it due "))
  = filter (fun c => negb (isspace c)) (py "  when is   it due ") /\
  py "when" <> [] /\
  forall c, In c (py "when") -> isspace c = false.
Proof.
  destruct (@split_loses_only_whitespace ascii_db (py "  when is   it due "))
    as [Hcat Hwords].
  split; [exact Hcat|]. apply Hwords. left. reflexivity.
Defined.

Lemma fallback_words_are_long_runs_witness :
  4 <= List.length (py "rules") /\
  (forall c, In c (py "rules") -> isspace c = false) /\
  ~ In 63%N (py "rules") /\
  contains (py "rules")
    (replace_char 63%N 32%N (py "what? is the mark?ing rules")) = true /\
  List.length (py "rules") <= List.length (py "what? is the mark?ing rules").
Proof.
  apply (@fallback_words_are_long_runs ascii_db
           (py "what? is the mark?ing rules") (py "rules")).
  right. right. left. reflexivity.
Defined.

Lemma short_question_is_refused_witness :
  answer (open_with [guide; handbook]) (ask (py " Hi? ")) = Ok refusal_response.
Proof.
  apply (@short_question_is_refused ascii_db);
    [reflexivity | vm_compute; lia | reflexivity].
Defined.

Lemma answer_reads_normalized_question_witness :
  question (ask (py "  When is TASK 1 due? "))
    <> question (ask_as_staff (py "when is task 1 due?")) /\
  answer (open_with [guide]) (ask (py "  When is TASK 1 due? "))
  = answer (with_docs schedule4 [guide]) (ask_as_staff (py "when is task 1 due?")).
Proof.
  split; [discriminate|].
  apply (@answer_reads_normalized_question ascii_db); reflexivity.
Defined.

Lemma citations_point_into_corpus_witness :
  exists doc sec,
    In doc [bare; handbook; guide] /\ In sec (get (doc_sections doc) []) /\
    doc_title doc = Some (py "Handbook") /\ doc_href doc = Some (py "/h") /\
    get (sec_loc sec) [] = py "s.2".
Proof.
  apply (@citations_point_into_corpus ascii_db
           (open_with [bare; handbook; guide])
           (ask (py "What are the MARKING rules?"))
           {| resp_answer := py "Marking criteria are published in the guide";
              resp_citations :=
                [{| title := py "Handbook"; href := py "/h"; loc := py "s.2" |}];
              resp_socratic_prompts := [overlap_prompt];
              resp_refusal := false |}
           {| title := py "Handbook"; href := py "/h"; loc := py "s.2" |}).
  - reflexivity.
  - left. reflexivity.
Defined.

Lemma one_prompt_per_citation_witness :
  List.length [task1_prompt]
  = List.length [{| title := py "Guide"; href := py "/g"; loc := py "p.1" |}] /\
  List.length [{| title := py "Guide"; href := py "/g"; loc := py "p.1" |}] <= 1.
Proof.
  apply (@one_prompt_per_citation ascii_db
           (open_with [guide]) (ask (py "When is Task 1 due?"))
           {| resp_answer := task1_answer;
              resp_citations :=
                [{| title := py "Guide"; href := py "/g"; loc := py "p.1" |}];
              resp_socratic_prompts := [task1_prompt];
              resp_refusal := false |}).
  reflexivity.
Defined.

Lemma fallback_answer_shares_a_word_witness :
  exists w,
    4 <= List.length w /\
    contains w (replace_char 63%N 32%N
                  (normalized (ask (py "What are the MARKING rules?")))) = true /\
    contains w (lower (py "Assessment overview and marking criteria")) = true.
Proof.
  apply (@fallback_answer_shares_a_word ascii_db
           (open_with [guide]) (ask (py "What are the MARKING rules?"))
           {| resp_answer := py "Assessment overview and marking criteria";
              resp_citations :=
                [{| title := py "Guide"; href := py "/g"; loc := py "p.1" |}];
              resp_socratic_prompts := [overlap_prompt];
              resp_refusal := false |});
    reflexivity.
Defined.

Lemma appended_documents_keep_answer_witness :
  answer (with_docs (open_with []) ([handbook] ++ [guide]))
         (ask (py "What are the MARKING rules?")) =
    Ok {| resp_answer := py "Marking criteria are published in the guide";
          resp_citations :=
            [{| title := py "Handbook"; href := py "/h"; loc := py "s.2" |}];
          resp_socratic_prompts := [overlap_prompt];
          resp_refusal := false |}.
Proof.
  apply (@appended_documents_keep_answer ascii_db); reflexivity.
Defined.

Lemma keyword_path_reads_first_document_witness :
  answer (with_docs (open_with []) [guide]) (ask (py "When is Task 1 due?"))
  = answer (with_docs (open_with []) [guide; handbook; bare])
           (ask_as_staff (py "My PROPOSAL is late")).
Proof.
  apply (@keyword_path_reads_first_document ascii_db); reflexivity.
Defined.

Lemma answer_raises_only_on_empty_sections_witness :
  (forall e,
      answer (open_with [bare; guide]) (ask (py "Is the proposal marked?"))
        = Raise e -> e = IndexError) /\
  (answer (open_with [bare; guide]) (ask (py "Is the proposal marked?"))
     = Raise IndexError <->
   any_in keywords (normalized (ask (py "Is the proposal marked?"))) = true /\
   exists doc rest,
     DOCS (open_with [bare; guide]) = doc :: rest /\ doc_sections doc = Some []).
Proof.
  apply (@answer_raises_only_on_empty_sections ascii_db); reflexivity.
Defined.

Lemma fallback_tolerates_missing_keys_witness :
  answer (open_with [sparse; hollow; unplaced]) (ask (py "marking rubric?")) =
    Ok {| resp_answer := py "Marking rubric for the report";
          resp_citations :=
            [{| title := py "Unplaced"; href := py "/u"; loc := [] |}];
          resp_socratic_prompts := [overlap_prompt];
          resp_refusal := false |} /\
  exists r,
    answer (open_with [sparse; hollow; unplaced]) (ask (py "marking rubric?"))
      = Ok r.
Proof.
  split; [reflexivity|].
  apply (@fallback_tolerates_missing_keys ascii_db); reflexivity.
Defined.

Lemma startup_without_data_witness :
  answer (startup None (Some {| weeks := None |}) None)
         (ask (py "When is Task 1 due?")) = Ok refusal_response /\
  nxt (startup None None (Some [guide])) (ask_week (IInt 4)) =
    Ok {| checklist := [no_milestones];
          refs := [{| ref_title := py "mock_dates.json";
                      ref_loc := py "week:4" |}] |}.
Proof.
  destruct (@startup_without_data ascii_db None eq_refl) as [Hdocs Hmock].
  split; [apply Hdocs | apply Hmock].
Defined.

Lemma nxt_checklist_never_empty_witness :
  exists r,
    nxt schedule4 (ask_week (IInt 5)) = Ok r /\
    checklist r <> [] /\
    List.length (refs r) = 1 /\
    (checklist r = [no_milestones] \/
     exists w, In w (get (weeks (MOCK schedule4)) []) /\
               wk_week w = dict_get (py "week") (state (ask_week (IInt 5))) /\
               wk_milestones w = Some (checklist r)).
Proof.
  apply (@nxt_checklist_never_empty schedule4 (ask_week (IInt 5))). reflexivity.
Defined.

Lemma nxt_reads_week_only_witness :
  nxt schedule4 (ask_week (IInt 4))
  = nxt (with_docs schedule4 [guide])
        {| next_role := py "staff";
           state := [(py "term", IStr (py "T1")); (py "week", IInt 4)] |}.
Proof.
  apply nxt_reads_week_only; reflexivity.
Defined.

Lemma nxt_without_week_matches_undated_witness :
  nxt undated {| next_role := py "student"; state := [] |} =
    Ok {| checklist := [py "Unscheduled work"];
          refs := [{| ref_title := py "mock_dates.json";
                      ref_loc := py "week:None" |}] |}.
Proof.
  apply (@nxt_without_week_matches_undated undated
           {| next_role := py "student"; state := [] |}
           [{| wk_week := Some (IInt 1); wk_milestones := Some [py "Kick-off"] |}]
           []
           {| wk_week := None; wk_milestones := Some [py "Unscheduled work"] |}
           (py "Unscheduled work") []); try reflexivity.
  intros w [<-|[]]. discriminate.
Defined.

Lemma integer_week_read_back_from_ref_witness :
  exists r1 r2,
    nxt schedule4 (ask_week (IInt 4)) = Ok r1 /\
    nxt schedule4 {| next_role := py "staff"; state := [(py "week", IInt 4)] |}
      = Ok r2 /\
    refs r1 = refs r2 /\ (4 = 4)%Z.
Proof.
  eexists. eexists. split; [reflexivity|]. split; [reflexivity|].
  split; [reflexivity|].
  apply (@integer_week_read_back_from_ref schedule4
           (ask_week (IInt 4))
           {| next_role := py "staff"; state := [(py "week", IInt 4)] |}
           4%Z 4%Z
           {| checklist := [py "Submit proposal"];
              refs := [{| ref_title := py "mock_dates.json";
                          ref_loc := py "week:4" |}] |}
           {| checklist := [py "Submit proposal"];
              refs := [{| ref_title := py "mock_dates.json";
                          ref_loc := py "week:4" |}] |});
    reflexivity.
Defined.

Lemma appended_weeks_keep_checklist_witness :
  nxt (with_weeks schedule4
         (Some ([{| wk_week := Some (IInt 4);
                    wk_milestones := Some [py "Submit proposal"] |}]
                ++ [{| wk_week := Some (IInt 4);
                       wk_milestones := Some [py "Second entry"] |}])))
      (ask_week (IInt 4))
  = nxt (with_weeks schedule4
           (Some [{| wk_week := Some (IInt 4);
                     wk_milestones := Some [py "Submit proposal"] |}]))
        (ask_week (IInt 4)).
Proof.
  apply appended_weeks_keep_checklist.
  exists {| wk_week := Some (IInt 4);
            wk_milestones := Some [py "Submit proposal"] |}.
  split; [left; reflexivity | reflexivity].
Defined.
